(** * A shallow embedding of [pc_lib/pc_lib_utility.py] (class [PrismaCloudUtility])

    Python values are modelled by [pyval] (the JSON-shaped values the module
    reads and writes), Python text by [string] whose characters are the code
    points U+0000..U+00FF, the file system by a [gmap] from absolute paths to
    file contents, and the process by a small state/exit monad: a call ends
    by returning, by [sys.exit] with a status, or by an uncaught exception. *)

From Stdlib Require Import String Ascii ZArith List Bool Lia.
From stdpp Require Import base gmap strings.

Open Scope string_scope.
Set Warnings "-register-all".

(* ================================================================= *)
(** ** Python string methods *)

Module PyStr.

(** [str.lower] on the code points U+0000..U+00FF: A-Z and the Latin-1
    capitals U+00C0..U+00DE (except U+00D7, the multiplication sign) map
    to the code point 32 above. *)
Definition lower_char (c : ascii) : ascii :=
  let n := nat_of_ascii c in
  if (((65 <=? n) && (n <=? 90)) || ((192 <=? n) && (n <=? 222) && negb (n =? 215)))%nat
  then ascii_of_nat (n + 32) else c.

Fixpoint lower (s : string) : string :=
  match s with
  | EmptyString => EmptyString
  | String c s' => String (lower_char c) (lower s')
  end.

(** [s.replace(old, new)] for a non-empty [old]: a left-to-right scan that
    replaces non-overlapping occurrences.  [k] counts the characters of the
    occurrence just replaced that are still to be skipped. *)
Fixpoint replace_aux (old new : string) (k : nat) (s : string) : string :=
  match s with
  | EmptyString => EmptyString
  | String c s' =>
      match k with
      | S k' => replace_aux old new k' s'
      | O =>
          if String.prefix old s
          then String.append new (replace_aux old new (pred (String.length old)) s')
          else String c (replace_aux old new 0 s')
      end
  end.

Definition replace (old new s : string) : string := replace_aux old new 0 s.

(** Membership of a character in a string ([c in chars]). *)
Fixpoint char_in (c : ascii) (chars : string) : bool :=
  match chars with
  | EmptyString => false
  | String d chars' => Ascii.eqb c d || char_in c chars'
  end.

(** [s.rstrip(chars)]: drop the trailing characters that occur in [chars]. *)
Fixpoint rstrip (chars s : string) : string :=
  match s with
  | EmptyString => EmptyString
  | String c s' =>
      let r := rstrip chars s' in
      if String.eqb r "" && char_in c chars
      then EmptyString else String c r
  end.

(** The last character of a string, if any ([s[-1]]). *)
Fixpoint last_char (s : string) : option ascii :=
  match s with
  | EmptyString => None
  | String c EmptyString => Some c
  | String _ s' => last_char s'
  end.

(** [str.lstrip(chars)]. *)
Fixpoint lstrip (chars s : string) : string :=
  match s with
  | EmptyString => EmptyString
  | String c s' => if char_in c chars then lstrip chars s' else s
  end.

(** The characters of U+0000..U+00FF for which [str.isspace()] holds. *)
Definition whitespace : string :=
  fold_right (fun n acc => String (ascii_of_nat n) acc) EmptyString
    [9; 10; 11; 12; 13; 28; 29; 30; 31; 32; 133; 160]%nat.

(** [s.strip()]. *)
Definition strip (s : string) : string := rstrip whitespace (lstrip whitespace s).

(** Truthiness of a [str]: [not s] holds exactly for the empty string. *)
Definition truthy (s : string) : bool := negb (String.eqb s "").

End PyStr.

(* ================================================================= *)
(** ** URL normalisation ([normalize_api_base], [normalize_api_compute_base]) *)

(** An argument of type [str] or [None]. *)
Abbreviation pystr := (option string).

Definition normalize_api_base (api : pystr) : pystr :=
  match api with
  | None => None
  | Some a =>
      if negb (PyStr.truthy a) then None else
      let a := PyStr.lower a in
      let a := PyStr.replace "app" "api" a in
      let a := PyStr.replace "redlock" "prismacloud" a in
      let a := PyStr.replace "http://" "" a in
      let a := PyStr.replace "https://" "" a in
      let a := PyStr.rstrip "/" a in
      Some a
  end.

Definition normalize_api_compute_base (api_compute : pystr) : pystr :=
  match api_compute with
  | None => None
  | Some a =>
      if negb (PyStr.truthy a) then None else
      let a := PyStr.lower a in
      let a := PyStr.replace "http://" "" a in
      let a := PyStr.replace "https://" "" a in
      let a := PyStr.rstrip "/" a in
      Some a
  end.

(** The normalisation in the order the specification words it: lower-case,
    strip a leading [http://] or [https://], strip trailing ['/'], then
    substitute [app] and [redlock].  Compared with [normalize_api_base]. *)
Definition strip_prefix (p s : string) : string :=
  if String.prefix p s then substring (String.length p) (String.length s - String.length p) s else s.

Definition normalize_api_base_as_specified (api : pystr) : pystr :=
  match api with
  | None => None
  | Some a =>
      if negb (PyStr.truthy a) then None else
      let a := PyStr.lower a in
      let a := strip_prefix "https://" (strip_prefix "http://" a) in
      let a := PyStr.rstrip "/" a in
      let a := PyStr.replace "app" "api" a in
      let a := PyStr.replace "redlock" "prismacloud" a in
      Some a
  end.

(* ================================================================= *)
(** ** Python values *)

Module Py.

(** The values the module handles: JSON documents as [json.load] returns
    them (no floats) and the arguments it receives.  A [dict] is its list of
    entries in insertion order, with distinct keys. *)
Inductive pyval : Type :=
| PNone
| PBool (b : bool)
| PInt (z : Z)
| PStr (s : string)
| PList (l : list pyval)
| PDict (d : list (string * pyval)).

Definition of_pystr (s : pystr) : pyval :=
  match s with None => PNone | Some x => PStr x end.

(** [k in d] for a dict. *)
Definition dict_in {A} (k : string) (d : list (string * A)) : bool :=
  existsb (fun e => String.eqb (fst e) k) d.

(** [d.get(k)]. *)
Fixpoint dict_get {A} (k : string) (d : list (string * A)) : option A :=
  match d with
  | [] => None
  | (k', v) :: d' => if String.eqb k' k then Some v else dict_get k d'
  end.

(** [d[k] = v]: overwrite in place, or append a new entry. *)
Fixpoint dict_set {A} (k : string) (v : A) (d : list (string * A)) : list (string * A) :=
  match d with
  | [] => [(k, v)]
  | (k', w) :: d' => if String.eqb k' k then (k', v) :: d' else (k', w) :: dict_set k v d'
  end.

(** [bool(v)]. *)
Definition truthy (v : pyval) : bool :=
  match v with
  | PNone => false
  | PBool b => b
  | PInt z => negb (Z.eqb z 0)
  | PStr s => PyStr.truthy s
  | PList l => negb (Nat.eqb (length l) 0)
  | PDict d => negb (Nat.eqb (length d) 0)
  end.

(** [a == b] ([bool] is a subclass of [int], so [True == 1]). *)
Fixpoint eqb (a b : pyval) : bool :=
  match a, b with
  | PNone, PNone => true
  | PBool x, PBool y => Bool.eqb x y
  | PBool x, PInt z => Z.eqb (Z.b2z x) z
  | PInt z, PBool y => Z.eqb z (Z.b2z y)
  | PInt x, PInt y => Z.eqb x y
  | PStr x, PStr y => String.eqb x y
  | PList xs, PList ys =>
      (fix go (xs ys : list pyval) : bool :=
         match xs, ys with
         | [], [] => true
         | x :: xs', y :: ys' => eqb x y && go xs' ys'
         | _, _ => false
         end) xs ys
  | PDict dx, PDict dy =>
      Nat.eqb (length dx) (length dy) &&
      (fix go (dx : list (string * pyval)) : bool :=
         match dx with
         | [] => true
         | (k, v) :: dx' =>
             match dict_get k dy with Some w => eqb v w | None => false end && go dx'
         end) dx
  | _, _ => false
  end.

Inductive exn : Type :=
| KeyError (k : string)
| TypeError
| AttributeError
| EOFError.

End Py.

Import Py.

(* ================================================================= *)
(** ** The process: file system, terminal and exit *)

(** A regular file, seen through [open(path)] and [json.load]: either a
    well-formed JSON document with its value, or a file whose reading fails,
    with the exception message (text the parser rejects, or a file the
    process may not read). *)
Inductive content : Type :=
| JsonText (v : pyval)
| BadText (err : string).

Record world : Type := mkWorld {
  fs : gmap string content;     (** regular files, by absolute path *)
  stdin : list string;          (** lines still to be typed, without their newline *)
  stdout : list string          (** everything written, in order *)
}.

(** How a call ends. *)
Inductive outcome (A : Type) : Type :=
| Ret (a : A)
| Exit (status : Z)
| Raise (e : exn).
Arguments Ret {A} a.
Arguments Exit {A} status.
Arguments Raise {A} e.

Definition M (A : Type) : Type := world -> outcome A * world.

Definition ret {A} (a : A) : M A := fun w => (Ret a, w).

Definition bind {A B} (m : M A) (k : A -> M B) : M B :=
  fun w =>
    match m w with
    | (Ret a, w') => k a w'
    | (Exit n, w') => (Exit n, w')
    | (Raise e, w') => (Raise e, w')
    end.

Notation "'let*' x := m 'in' k" := (bind m (fun x => k))
  (at level 200, x name, m at level 100, k at level 200).

Definition raise {A} (e : exn) : M A := fun w => (Raise e, w).

(** [sys.exit(n)]. *)
Definition sys_exit {A} (n : Z) : M A := fun w => (Exit n, w).

(** [sys.stdout.write(s)]. *)
Definition write_out (s : string) : M unit :=
  fun w => (Ret tt, mkWorld (fs w) (stdin w) (stdout w ++ [s])).

(** [print(s)]. *)
Definition print (s : string) : M unit := write_out (String.append s (String "010"%char "")).

(** [input(prompt)]: the line without its terminator; [EOFError] at the end. *)
Definition input (prompt : string) : M string :=
  fun w =>
    let w1 := mkWorld (fs w) (stdin w) (stdout w ++ [prompt]) in
    match stdin w with
    | [] => (Raise EOFError, w1)
    | l :: rest => (Ret l, mkWorld (fs w) rest (stdout w1))
    end.

(** ['%s' % n] for a status code. *)
Definition digit (n : nat) : ascii := ascii_of_nat (48 + n).
Fixpoint nat_to_string_aux (fuel n : nat) (acc : string) : string :=
  match fuel with
  | O => acc
  | S fuel' =>
      let acc' := String (digit (n mod 10)) acc in
      if Nat.ltb n 10 then acc' else nat_to_string_aux fuel' (n / 10) acc'
  end.
Definition status_to_string (z : Z) : string :=
  let s := nat_to_string_aux (S (Z.to_nat (Z.abs z))) (Z.to_nat (Z.abs z)) "" in
  if Z.ltb z 0 then String "-"%char s else s.

(** [os.sep] and [os.path.join(a, b)] on POSIX. *)
Definition sep : ascii := "/"%char.

Definition ends_with_sep (a : string) : bool :=
  match PyStr.last_char a with Some c => Ascii.eqb c sep | None => false end.

Definition join (a b : string) : string :=
  match b with
  | String c _ => if Ascii.eqb c sep then b else
      if String.eqb a "" then b
      else if ends_with_sep a then String.append a b
      else String.append a (String sep b)
  | EmptyString =>
      if String.eqb a "" then b
      else if ends_with_sep a then a
      else String.append a (String sep EmptyString)
  end.
(* ================================================================= *)
(** ** [PrismaCloudUtility] *)

(** [path.split('/')]. *)
Fixpoint split_sep (s : string) : list string :=
  match s with
  | EmptyString => [""]
  | String c s' =>
      let r := split_sep s' in
      if Ascii.eqb c sep then "" :: r
      else match r with x :: r' => String c x :: r' | [] => [String c ""] end
  end.

(** The kernel's reading of the components of an absolute path, with no
    symbolic links: empty and ['.'] components are skipped and ['..'] goes
    up one level.  The result is innermost first. *)
Fixpoint norm_components (stack cs : list string) : list string :=
  match cs with
  | [] => stack
  | c :: cs' =>
      if String.eqb c "" || String.eqb c "." then norm_components stack cs'
      else if String.eqb c ".." then norm_components (tl stack) cs'
      else norm_components (c :: stack) cs'
  end.

Definition render_path (stack : list string) : string :=
  String.append "/" (String.concat "/" (rev stack)).

(** The normalised absolute path of the file an absolute path names. *)
Definition normpath (p : string) : string := render_path (norm_components [] (split_sep p)).

(** The text of an [OSError] raised for a path. *)
Definition os_error (msg p : string) : string :=
  String.append msg (String.append ": '" (String.append p "'")).

(** What the program cannot change but [open(path, 'w')] depends on: the
    existing directories, the special files that accept and discard what is
    written to them (such as [/dev/null]), the files the process may write
    but not read, and the paths whose opening for writing, or writing, the
    operating system refuses (permissions, a read-only or a full file
    system).  Paths are normalised absolute paths. *)
Record host : Type := mkHost {
  dirs : gset string;
  devices : gset string;
  write_only : gset string;
  denied : gset string
}.

Definition DEFAULT_SETTINGS_FILE_NAME : string := "pc-settings.conf".
Definition DEFAULT_SETTINGS_FILE_VERSION : Z := 4.

(** The parsed command line ([get_arg_parser]): every option is a [str] or
    [None], and [--yes] is a flag. *)
Record args : Type := mkArgs {
  username : pystr;
  password : pystr;
  api : pystr;
  api_compute : pystr;
  ca_bundle : pystr;
  config_file : pystr;
  yes : bool
}.

Section Utility.

(** [os.getcwd()]; every relative path is resolved against it. *)
Variable cwd : string.

(** The machine the process runs on. *)
Variable os : host.

(** The file a path names: [open] and [os.path.isfile] resolve a relative
    path against the working directory, and the kernel resolves ['.'] and
    ['..'] (here on the text of the path: a ['..'] after a component that
    is not a directory is checked by [open_for_write] only). *)
Definition resolve (p : string) : string := normpath (join cwd p).

Definition isfile (p : string) : M bool :=
  fun w => (Ret (bool_decide (is_Some (fs w !! resolve p))), w).

Definition error_and_exit {A} (error_code : Z) (error_message system_message : pystr) : M A :=
  let* _ := print "" in
  let* _ := print "" in
  let* _ := print (String.append "Status Code: " (status_to_string error_code)) in
  let* _ := match error_message with Some m => print m | None => ret tt end in
  let* _ := match system_message with Some m => print m | None => ret tt end in
  let* _ := print "" in
  sys_exit 1.

Definition success_exit {A} : M A := sys_exit 0.

Definition user_or_default_settings_file (settings_file_name : pystr) : string :=
  match settings_file_name with
  | None => join cwd DEFAULT_SETTINGS_FILE_NAME
  | Some n => if PyStr.char_in sep n then n else join cwd n
  end.

(** [json.load(open(file_name_and_path))], the exception text of a failure. *)
Definition load_json (p : string) : M (option pyval + string) :=
  fun w =>
    match fs w !! resolve p with
    | Some (JsonText v) => (Ret (inl (Some v)), w)
    | Some (BadText err) => (Ret (inr err), w)
    | None => (Ret (inr "No such file or directory"), w)
    end.

Definition read_json_file (file_name : string) : M pyval :=
  let file_name_and_path := join cwd file_name in
  let* r := load_json file_name_and_path in
  match r with
  | inl (Some v) => ret v
  | inl None => ret PNone
  | inr ex => error_and_exit 500 (Some "Failed to read JSON file.") (Some ex)
  end.

(** The directories [open] walks through, all components of an absolute
    path but the last: [None] when each of them exists. *)
Fixpoint walk_dirs (files : gmap string content) (stack cs : list string) : option string :=
  match cs with
  | [] => None
  | [_] => None
  | c :: cs' =>
      if String.eqb c "" || String.eqb c "." then walk_dirs files stack cs'
      else if String.eqb c ".." then walk_dirs files (tl stack) cs'
      else
        let d := render_path (c :: stack) in
        if bool_decide (d ∈ dirs os) then walk_dirs files (c :: stack) cs'
        else if bool_decide (is_Some (files !! d)) then Some "[Errno 20] Not a directory"
        else Some "[Errno 2] No such file or directory"
  end.

(** The answer of the operating system to [open(path, 'w')]: [None] when
    the file is opened (created or truncated), or the [OSError] text. *)
Definition open_for_write (files : gmap string content) (path : string) : option string :=
  let target := resolve path in
  let full := join cwd path in
  let cs := split_sep full in
  match walk_dirs files [] (if ends_with_sep full then removelast cs else cs) with
  | Some err => Some (os_error err path)
  | None =>
      if bool_decide (target ∈ dirs os) then Some (os_error "[Errno 21] Is a directory" path)
      else if ends_with_sep full then
        Some (os_error (if bool_decide (is_Some (files !! target))
                        then "[Errno 20] Not a directory" else "[Errno 21] Is a directory") path)
      else if bool_decide (target ∈ denied os) then Some (os_error "[Errno 13] Permission denied" path)
      else None
  end.

(** [open(path, 'w')] and [json.dumps] followed by [write].  A refusal of
    the operating system is an exception, which the handler turns into a
    fatal exit.  Otherwise a special file takes the text and keeps nothing,
    and a regular file then holds the text, which parses back to
    [data_to_write] (the values written here are a dict of [str], [int] and
    [None]); a file the process may not read stays unreadable. *)
Definition write_json_file (file_name : string) (data_to_write : pyval) (pretty : bool) : M unit :=
  let file_name_and_path := join cwd file_name in
  let target := resolve file_name_and_path in
  fun w =>
    match open_for_write (fs w) file_name_and_path with
    | Some ex => error_and_exit 500 (Some "Failed to write JSON file.") (Some ex) w
    | None =>
        if bool_decide (target ∈ devices os) then (Ret tt, w)
        else
          let c := if bool_decide (target ∈ write_only os)
                   then BadText (os_error "[Errno 13] Permission denied" target)
                   else JsonText data_to_write in
          (Ret tt, mkWorld (<[target := c]> (fs w)) (stdin w) (stdout w))
    end.

(** [obj[k]] for a [str] key. *)
Definition getitem (o : pyval) (k : string) : M pyval :=
  match o with
  | PDict d => match dict_get k d with Some v => ret v | None => raise (KeyError k) end
  | _ => raise TypeError
  end.

(** [obj[k] = v] for a [str] key. *)
Definition setitem (o : pyval) (k : string) (v : pyval) : M pyval :=
  match o with
  | PDict d => ret (PDict (dict_set k v d))
  | _ => raise TypeError
  end.

(** [k in obj] for a [str] key; only dicts reach it here. *)
Definition contains (o : pyval) (k : string) : bool :=
  match o with PDict d => dict_in k d | _ => false end.

Definition read_settings_file (settings_file_name : pystr) : M pyval :=
  let settings_file_name := user_or_default_settings_file settings_file_name in
  let* found := isfile settings_file_name in
  let* _ := if negb found
            then error_and_exit 400 (Some "Cannot find the settings file. Please run pc-configure.py.") None
            else ret tt in
  let* settings := read_json_file settings_file_name in
  let* _ := if negb (truthy settings)
            then error_and_exit 500 (Some "The settings file exists, but cannot be read. Please run pc-configure.py.") None
            else ret tt in
  let* version := getitem settings "settings_file_version" in
  let* _ := if negb (Py.eqb version (PInt DEFAULT_SETTINGS_FILE_VERSION))
            then error_and_exit 500 (Some "The settings file appears to be out-of-date. Please rerun pc-configure.py, and/or download the latest version of these scripts.") None
            else ret tt in
  ret settings.

(** The dict [write_settings_file] and [get_settings] build from [args]
    (with [settings_file_version] first when [versioned]). *)
Definition settings_of_args (versioned : bool) (a : args) : list (string * pyval) :=
  (if versioned then [("settings_file_version", PInt DEFAULT_SETTINGS_FILE_VERSION)] else []) ++
  [("apiBase", of_pystr (normalize_api_base (api a)));
   ("username", of_pystr (username a));
   ("password", of_pystr (password a));
   ("api_compute", of_pystr (normalize_api_compute_base (api_compute a)));
   ("ca_bundle", of_pystr (ca_bundle a))].

Definition write_settings_file (a : args) : M unit :=
  let settings_file_name := user_or_default_settings_file (config_file a) in
  write_json_file settings_file_name (PDict (settings_of_args true a)) true.

Definition is_none (s : pystr) : bool := match s with None => true | Some _ => false end.

Definition get_settings (a : args) : M pyval :=
  if is_none (username a) && is_none (password a) && is_none (api a) then
    let* settings := read_settings_file (config_file a) in
    let* settings := if negb (contains settings "api_compute")
                     then setitem settings "api_compute" PNone else ret settings in
    let* settings := if negb (contains settings "ca_bundle")
                     then setitem settings "ca_bundle" PNone else ret settings in
    ret settings
  else if is_none (username a) || is_none (password a) || is_none (api a) then
    let* _ := error_and_exit (A := unit) 400 (Some "Access Key (--username), Secret Key (--password), and API/UI Base URL (--api) are all required.") None in
    ret (PDict [])
  else
    ret (PDict (settings_of_args false a)).

Definition prompt_for_verification_to_continue (a : args) : M unit :=
  if negb (yes a) then
    let* _ := print "" in
    let* _ := print "Ready to execute commands against your Prisma Cloud tenant ..." in
    let* verification_response := input "Would you like to continue (y or yes)? " in
    let* _ := print "" in
    if String.eqb verification_response "yes" || String.eqb verification_response "y"
    then ret tt
    else error_and_exit 400 (Some "Exiting ...") None
  else ret tt.

End Utility.

(* ================================================================= *)
(** ** Search helpers ([search_list_*]) *)

(** A mapping of the searched list. *)
Abbreviation dict := (list (string * pyval)).

(** [v.lower()] on a value: only a [str] has the method. *)
Definition lower_method (v : pyval) : outcome string :=
  match v with PStr s => Ret (PyStr.lower s) | _ => Raise AttributeError end.

(** [source_item[field_to_return]]. *)
Definition item_get (item : dict) (k : string) : outcome pyval :=
  match dict_get k item with Some v => Ret v | None => Raise (KeyError k) end.

Fixpoint search_list_value (list_to_search : list dict) (field_to_search field_to_return : string)
    (search_value : pyval) : outcome pyval :=
  match list_to_search with
  | [] => Ret PNone
  | source_item :: rest =>
      let continue := search_list_value rest field_to_search field_to_return search_value in
      if dict_in field_to_search source_item then
        match dict_get field_to_search source_item with
        | Some x => if Py.eqb x search_value then item_get source_item field_to_return else continue
        | None => continue
        end
      else continue
  end.

(** The loop of the [_lower] variants, after [search_value.lower()]. *)
Fixpoint search_list_value_lower_loop (list_to_search : list dict) (field_to_search field_to_return : string)
    (search_value : string) : outcome pyval :=
  match list_to_search with
  | [] => Ret PNone
  | source_item :: rest =>
      let continue := search_list_value_lower_loop rest field_to_search field_to_return search_value in
      if dict_in field_to_search source_item then
        match dict_get field_to_search source_item with
        | Some x =>
            match lower_method x with
            | Ret lx => if String.eqb lx search_value then item_get source_item field_to_return else continue
            | Exit n => Exit n
            | Raise e => Raise e
            end
        | None => continue
        end
      else continue
  end.

Definition search_list_value_lower (list_to_search : list dict) (field_to_search field_to_return : string)
    (search_value : pyval) : outcome pyval :=
  match lower_method search_value with
  | Ret sv => search_list_value_lower_loop list_to_search field_to_search field_to_return sv
  | Exit n => Exit n
  | Raise e => Raise e
  end.

Fixpoint search_list_object (list_to_search : list dict) (field_to_search : string)
    (search_value : pyval) : outcome (option dict) :=
  match list_to_search with
  | [] => Ret None
  | source_item :: rest =>
      let continue := search_list_object rest field_to_search search_value in
      if dict_in field_to_search source_item then
        match dict_get field_to_search source_item with
        | Some x => if Py.eqb x search_value then Ret (Some source_item) else continue
        | None => continue
        end
      else continue
  end.

Fixpoint search_list_object_lower_loop (list_to_search : list dict) (field_to_search : string)
    (search_value : string) : outcome (option dict) :=
  match list_to_search with
  | [] => Ret None
  | source_item :: rest =>
      let continue := search_list_object_lower_loop rest field_to_search search_value in
      if dict_in field_to_search source_item then
        match dict_get field_to_search source_item with
        | Some x =>
            match lower_method x with
            | Ret lx => if String.eqb lx search_value then Ret (Some source_item) else continue
            | Exit n => Exit n
            | Raise e => Raise e
            end
        | None => continue
        end
      else continue
  end.

Definition search_list_object_lower (list_to_search : list dict) (field_to_search : string)
    (search_value : pyval) : outcome (option dict) :=
  match lower_method search_value with
  | Ret sv => search_list_object_lower_loop list_to_search field_to_search sv
  | Exit n => Exit n
  | Raise e => Raise e
  end.

(** The [list] variants append the first match and then [break]. *)
Fixpoint search_list_list (list_to_search : list dict) (field_to_search : string)
    (search_value : pyval) : outcome (list dict) :=
  match list_to_search with
  | [] => Ret []
  | source_item :: rest =>
      let continue := search_list_list rest field_to_search search_value in
      if dict_in field_to_search source_item then
        match dict_get field_to_search source_item with
        | Some x => if Py.eqb x search_value then Ret [source_item] else continue
        | None => continue
        end
      else continue
  end.

Fixpoint search_list_list_lower_loop (list_to_search : list dict) (field_to_search : string)
    (search_value : string) : outcome (list dict) :=
  match list_to_search with
  | [] => Ret []
  | source_item :: rest =>
      let continue := search_list_list_lower_loop rest field_to_search search_value in
      if dict_in field_to_search source_item then
        match dict_get field_to_search source_item with
        | Some x =>
            match lower_method x with
            | Ret lx => if String.eqb lx search_value then Ret [source_item] else continue
            | Exit n => Exit n
            | Raise e => Raise e
            end
        | None => continue
        end
      else continue
  end.

Definition search_list_list_lower (list_to_search : list dict) (field_to_search : string)
    (search_value : pyval) : outcome (list dict) :=
  match lower_method search_value with
  | Ret sv => search_list_list_lower_loop list_to_search field_to_search sv
  | Exit n => Exit n
  | Raise e => Raise e
  end.

(* ================================================================= *)
(** ** Auxiliary definitions for the statements *)

Definition MSG_READY : string := "Ready to execute commands against your Prisma Cloud tenant ...".
Definition PROMPT : string := "Would you like to continue (y or yes)? ".

(** The test of the search helpers on one mapping: it has the field and
    its value [==] the search value. *)
Definition field_matches (field_to_search : string) (search_value : pyval) (item : dict) : bool :=
  match dict_get field_to_search item with Some x => Py.eqb x search_value | None => false end.

(** The same, case-insensitively, for a string field and a string. *)
Definition field_matches_lower (field_to_search : string) (search_value : string) (item : dict) : bool :=
  match dict_get field_to_search item with
  | Some (PStr x) => String.eqb (PyStr.lower x) (PyStr.lower search_value)
  | _ => false
  end.

(** Where the [_lower] loops stop on one mapping: its field holds a string
    equal to the search string after lower-casing both, or holds a value
    without [lower] (an [AttributeError]). *)
Definition lower_stop (field_to_search : string) (search_value : string) (item : dict) : bool :=
  match dict_get field_to_search item with
  | Some (PStr x) => String.eqb (PyStr.lower x) (PyStr.lower search_value)
  | Some _ => true
  | None => false
  end.

(** The searched field, where present, holds a string. *)
Definition str_field (field_to_search : string) (item : dict) : bool :=
  match dict_get field_to_search item with Some (PStr _) | None => true | Some _ => false end.



(** A line as [print] writes it. *)
Definition line (s : string) : string := String.append s (String "010"%char "").

(** What [error_and_exit(code, msg, sysmsg)] writes before exiting. *)
Definition error_lines (code : Z) (msg sysmsg : pystr) : list string :=
  [line ""; line ""; line (String.append "Status Code: " (status_to_string code))] ++
  (match msg with Some m => [line m] | None => [] end) ++
  (match sysmsg with Some m => [line m] | None => [] end) ++ [line ""].

(** An absolute path, as [os.getcwd()] returns. *)
Definition starts_with_sep (s : string) : bool :=
  match s with String c _ => Ascii.eqb c sep | EmptyString => false end.

(** How many of [username], [password], [api] were given. *)
Definition credentials_present (a : args) : nat :=
  (if is_none (username a) then 0 else 1) + (if is_none (password a) then 0 else 1) +
  (if is_none (api a) then 0 else 1).

Definition MSG_NOT_FOUND : string := "Cannot find the settings file. Please run pc-configure.py.".
Definition MSG_UNREADABLE : string := "The settings file exists, but cannot be read. Please run pc-configure.py.".
Definition MSG_OUT_OF_DATE : string := "The settings file appears to be out-of-date. Please rerun pc-configure.py, and/or download the latest version of these scripts.".
Definition MSG_ALL_REQUIRED : string := "Access Key (--username), Secret Key (--password), and API/UI Base URL (--api) are all required.".

(** The substitution step of [normalize_api_base], on the lower-cased text. *)
Definition substitute (a : string) : string :=
  PyStr.replace "redlock" "prismacloud" (PyStr.replace "app" "api" (PyStr.lower a)).

(** The dict [get_settings] returns after reading [d] from the file. *)
Definition fill_defaults (d : dict) : dict :=
  let d := if dict_in "api_compute" d then d else dict_set "api_compute" PNone d in
  if dict_in "ca_bundle" d then d else dict_set "ca_bundle" PNone d.

(** The searched field is, where present, a string already in lower case. *)
Definition lower_str_field (field_to_search : string) (item : dict) : bool :=
  match dict_get field_to_search item with
  | Some (PStr x) => String.eqb (PyStr.lower x) x
  | Some _ => false
  | None => true
  end.

(** A computation that leaves the files and the pending input alone and
    only appends to the output. *)
Definition keeps_files {A} (m : M A) : Prop :=
  forall w, fs (snd (m w)) = fs w /\ stdin (snd (m w)) = stdin w /\
            exists out, stdout (snd (m w)) = (stdout w ++ out)%list.

(** A computation whose every [sys.exit] has status 1. *)
Definition exits_with_one {A} (m : M A) : Prop :=
  forall w n, fst (m w) = Exit n -> n = 1%Z.

(** A small world and argument set for the sanity checks below. *)
Definition w0 : world := mkWorld ∅ [] [].
(** A machine with a home directory and [/dev/null]. *)
Definition host0 : host := mkHost {[ "/"; "/home"; "/home/u"; "/dev" ]} {[ "/dev/null" ]} ∅ ∅.
Definition args0 : args := mkArgs (Some "k") (Some "s") (Some "https://app.x.com/") None None None false.

(* ================================================================= *)
(** ** Sanity checks on concrete inputs *)

Example nab_app : normalize_api_base (Some "https://app.example.com/") = Some "api.example.com".
Proof. reflexivity. Qed.
Example nab_redlock : normalize_api_base (Some "HTTP://redlock.io") = Some "prismacloud.io".
Proof. reflexivity. Qed.
Example nacb_ex : normalize_api_compute_base (Some "https://Compute.Example.com/") = Some "compute.example.com".
Proof. reflexivity. Qed.
Example nab_scheme_only : normalize_api_base (Some "https:///") = Some "".
Proof. reflexivity. Qed.
Example nab_mid : normalize_api_base (Some "ahttp://pp") = Some "app".
Proof. reflexivity. Qed.
Example repl_ex : PyStr.replace "aa" "b" "aaaaa" = "bba".
Proof. reflexivity. Qed.
Example lower_latin1 : PyStr.lower (String (ascii_of_nat 201) "X") = String (ascii_of_nat 233) "x".
Proof. reflexivity. Qed.

Example ex_write_read :
  fst ((let* _ := write_settings_file "/home/u" host0 args0 in read_settings_file "/home/u" None) w0)
  = Ret (PDict (settings_of_args true args0)).
Proof. vm_compute. reflexivity. Qed.
Example ex_join : join "/home/u" "pc-settings.conf" = "/home/u/pc-settings.conf".
Proof. reflexivity. Qed.
Example ex_status : status_to_string 400 = "400".
Proof. reflexivity. Qed.
Example ex_missing :
  (read_settings_file "/h" None) w0 =
  (Exit 1, mkWorld ∅ [] [String "010"%char ""; String "010"%char ""; "Status Code: 400
"; "Cannot find the settings file. Please run pc-configure.py.
"; "
"]).
Proof. vm_compute. reflexivity. Qed.

(* ================================================================= *)
(** ** Lemmas on the string methods *)

Module PyStrFacts.
Import PyStr.

Lemma lower_char_idem (c : ascii) : lower_char (lower_char c) = lower_char c.
Proof.
  destruct c as [b0 b1 b2 b3 b4 b5 b6 b7];
    destruct b0, b1, b2, b3, b4, b5, b6, b7; vm_compute; reflexivity.
Qed.

Lemma lower_idem (s : string) : lower (lower s) = lower s.
Proof. induction s as [|c s IH]; simpl; [reflexivity|]. now rewrite lower_char_idem, IH. Qed.

Lemma lower_append (a b : string) : lower (String.append a b) = String.append (lower a) (lower b).
Proof. induction a as [|c a IH]; simpl; [reflexivity|]. now rewrite IH. Qed.

Lemma lower_empty (s : string) : lower s = "" <-> s = "".
Proof. destruct s; simpl; split; congruence. Qed.

(** [replace] keeps a string in lower case when the replacement is. *)
Lemma replace_aux_lower (old new : string) (k : nat) (s : string) :
  lower new = new -> lower s = s ->
  lower (replace_aux old new k s) = replace_aux old new k s.
Proof.
  intros Hn. revert k. induction s as [|c s IH]; intros k Hs; cbn [replace_aux]; [reflexivity|].
  simpl in Hs. injection Hs as Hc Hs'.
  destruct k as [|k].
  - destruct (String.prefix old (String c s)).
    + rewrite lower_append, Hn, IH; auto.
    + cbn [lower]. rewrite Hc, IH; auto.
  - apply IH; auto.
Qed.

(** [replace] with a non-empty replacement keeps a string non-empty. *)
Lemma replace_nonempty (old new s : string) :
  new <> "" -> s <> "" -> replace old new s <> "".
Proof.
  unfold replace. intros Hn Hs. destruct s as [|c s]; [congruence|]. cbn [replace_aux].
  destruct (String.prefix old (String c s)).
  - destruct new; [congruence|]. simpl. discriminate.
  - discriminate.
Qed.

Lemma replace_empty (old new : string) : replace old new "" = "".
Proof. reflexivity. Qed.

Lemma truthy_false (s : string) : truthy s = false <-> s = "".
Proof. unfold truthy. destruct s; simpl; split; congruence. Qed.

(** [s.rstrip("/")] never ends with ["/"]. *)
Lemma rstrip_slash_last (s : string) : last_char (rstrip "/" s) <> Some "/"%char.
Proof.
  induction s as [|c s IH]; simpl; [discriminate|].
  destruct (String.eqb (rstrip "/" s) "") eqn:Er; simpl.
  - apply String.eqb_eq in Er. rewrite Er.
    destruct (Ascii.eqb c "/" || false) eqn:Ec; simpl; [discriminate|].
    rewrite orb_false_r in Ec. intros H. injection H as ->. discriminate.
  - destruct (rstrip "/" s) eqn:R; [discriminate|]. exact IH.
Qed.

End PyStrFacts.

(* ================================================================= *)
(** ** URL normalisation *)

Module Normalize.
Import PyStr PyStrFacts.

Lemma normalize_api_base_none (s : pystr) :
  normalize_api_base s = None <-> s = None \/ s = Some "".
Proof.
  destruct s as [a|]; simpl; [|tauto].
  destruct (truthy a) eqn:Ha; simpl.
  - split; [discriminate|]. intros [H|H]; [discriminate|]. injection H as ->. discriminate.
  - apply truthy_false in Ha. subst. tauto.
Qed.

Lemma normalize_api_compute_base_none (s : pystr) :
  normalize_api_compute_base s = None <-> s = None \/ s = Some "".
Proof.
  destruct s as [a|]; simpl; [|tauto].
  destruct (truthy a) eqn:Ha; simpl.
  - split; [discriminate|]. intros [H|H]; [discriminate|]. injection H as ->. discriminate.
  - apply truthy_false in Ha. subst. tauto.
Qed.

Lemma substitute_lower (a : string) : lower (substitute a) = substitute a.
Proof.
  unfold substitute, replace. apply replace_aux_lower; [reflexivity|].
  apply replace_aux_lower; [reflexivity|]. apply lower_idem.
Qed.

Lemma substitute_truthy (a : string) : truthy (substitute a) = truthy a.
Proof.
  destruct (truthy a) eqn:Ha.
  - destruct (truthy (substitute a)) eqn:Hs; [reflexivity|].
    apply truthy_false in Hs. exfalso. revert Hs. unfold substitute.
    apply replace_nonempty; [intros Hd; discriminate Hd|].
    apply replace_nonempty; [intros Hd; discriminate Hd|].
    intros He. apply (proj1 (lower_empty a)) in He. subst a. cbv in Ha. discriminate Ha.
  - apply truthy_false in Ha. subst. reflexivity.
Qed.

Lemma normalize_api_base_via_compute (s : pystr) :
  normalize_api_base s = normalize_api_compute_base (option_map substitute s).
Proof.
  destruct s as [a|]; [|reflexivity]. cbn [option_map normalize_api_base normalize_api_compute_base].
  rewrite substitute_truthy, substitute_lower. reflexivity.
Qed.

Lemma rstrip_not_slash (s : pystr) :
  match normalize_api_base s with Some r => last_char r <> Some "/"%char | None => True end /\
  match normalize_api_compute_base s with Some r => last_char r <> Some "/"%char | None => True end.
Proof.
  destruct s as [a|]; simpl; [|tauto].
  destruct (truthy a); simpl; split; auto using rstrip_slash_last.
Qed.

(** C1 (as amended): [normalize_api_base] and [normalize_api_compute_base]
    return [None] exactly on [None] and [""]; otherwise the compute variant
    lower-cases, removes every occurrence (anywhere in the text) of
    [http://] and then of [https://], and strips trailing ['/']; the API
    variant is the compute variant applied after substituting [app] by [api]
    and then [redlock] by [prismacloud] in the lower-cased text; and the
    examples of the specification hold. *)
Theorem normalize_api_base_amended :
  (forall s, normalize_api_base s = None <-> s = None \/ s = Some "") /\
  (forall s, normalize_api_compute_base s = None <-> s = None \/ s = Some "") /\
  (forall a, normalize_api_compute_base (Some a) =
     if truthy a then Some (rstrip "/" (replace "https://" "" (replace "http://" "" (lower a))))
     else None) /\
  (forall s, normalize_api_base s =
     normalize_api_compute_base
       (option_map (fun a => replace "redlock" "prismacloud" (replace "app" "api" (lower a))) s)) /\
  normalize_api_base (Some "https://app.example.com/") = Some "api.example.com" /\
  normalize_api_base (Some "HTTP://redlock.io") = Some "prismacloud.io" /\
  normalize_api_compute_base (Some "https://Compute.Example.com/") = Some "compute.example.com" /\
  normalize_api_compute_base (Some "x.com/http://y") = Some "x.com/y".
Proof.
  split; [exact normalize_api_base_none|].
  split; [exact normalize_api_compute_base_none|].
  split; [intros a; simpl; destruct (truthy a); reflexivity|].
  split; [exact normalize_api_base_via_compute|].
  repeat split; reflexivity.
Qed.

(** C1 (counterexample): the schemes are removed wherever they occur and
    after the substitution, not stripped as a prefix before it: on
    ["ahttp://pp"] the code returns ["app"], where the order of the
    specification keeps the text as it is (and a removal before the
    substitution would give ["api"]). *)
Lemma normalize_api_base_not_prefix_strip :
  normalize_api_base (Some "ahttp://pp") = Some "app" /\
  normalize_api_base_as_specified (Some "ahttp://pp") = Some "ahttp://pp" /\
  normalize_api_base (Some "ahttp://pp") <> normalize_api_base_as_specified (Some "ahttp://pp").
Proof. split; [reflexivity|]. split; [reflexivity|]. vm_compute. discriminate. Qed.

(** C10: a non-empty input made only of a scheme and slashes normalises to
    the empty string, not to [None]; [None] comes only from [None] or [""];
    and a result is never ending with ['/']. *)
Theorem normalize_empty_result_and_no_trailing_slash :
  normalize_api_base (Some "https:///") = Some "" /\
  normalize_api_compute_base (Some "https:///") = Some "" /\
  (forall s, match normalize_api_base s with
             | Some r => last_char r <> Some "/"%char
             | None => s = None \/ s = Some ""
             end) /\
  (forall s, match normalize_api_compute_base s with
             | Some r => last_char r <> Some "/"%char
             | None => s = None \/ s = Some ""
             end).
Proof.
  split; [reflexivity|]. split; [reflexivity|].
  split; intros s; pose proof (rstrip_not_slash s) as [H1 H2].
  - destruct (normalize_api_base s) eqn:E; [exact H1|]. now apply normalize_api_base_none.
  - destruct (normalize_api_compute_base s) eqn:E; [exact H2|]. now apply normalize_api_compute_base_none.
Qed.

End Normalize.

(* ================================================================= *)
(** ** Lemmas on the process model *)

Module ModelFacts.

Lemma error_and_exit_run {A} (code : Z) (msg sysmsg : pystr) (w : world) :
  @error_and_exit A code msg sysmsg w =
  (Exit 1, mkWorld (fs w) (stdin w) (stdout w ++ error_lines code msg sysmsg)).
Proof.
  destruct w as [f i o]. unfold error_and_exit, error_lines, bind, print, write_out, sys_exit, ret.
  destruct msg, sysmsg; simpl; repeat rewrite <- app_assoc; reflexivity.
Qed.

Lemma join_absolute (a b : string) : starts_with_sep b = true -> join a b = b.
Proof. destruct b as [|c b]; simpl; [discriminate|]. intros ->. reflexivity. Qed.

Lemma starts_with_sep_append (a b : string) :
  starts_with_sep a = true -> starts_with_sep (String.append a b) = true.
Proof. destruct a; simpl; [discriminate|auto]. Qed.

Lemma join_starts (cwd p : string) :
  starts_with_sep cwd = true -> starts_with_sep (join cwd p) = true.
Proof.
  intros Hc. assert (Hne : String.eqb cwd "" = false) by (destruct cwd; [discriminate|reflexivity]).
  destruct p as [|c p]; unfold join; rewrite Hne.
  - destruct (ends_with_sep cwd); auto using starts_with_sep_append.
  - destruct (Ascii.eqb c sep) eqn:E; [simpl; exact E|].
    destruct (ends_with_sep cwd); auto using starts_with_sep_append.
Qed.

(** [os.path.join(os.getcwd(), p)] names the file [p] names. *)
Lemma resolve_join (cwd p : string) :
  starts_with_sep cwd = true -> resolve cwd (join cwd p) = resolve cwd p.
Proof. intros Hc. unfold resolve. f_equal. apply join_absolute, join_starts, Hc. Qed.

Lemma dict_get_in {A} (k : string) (d : list (string * A)) :
  dict_in k d = false <-> dict_get k d = None.
Proof.
  unfold dict_in. induction d as [|[k' v] d IH]; simpl; [tauto|].
  destruct (String.eqb k' k); simpl; [split; discriminate|exact IH].
Qed.

Lemma dict_get_set_eq {A} (k : string) (v : A) (d : list (string * A)) :
  dict_get k (dict_set k v d) = Some v.
Proof.
  induction d as [|[k' w] d IH]; simpl; [now rewrite String.eqb_refl|].
  destruct (String.eqb k' k) eqn:E; simpl; rewrite ?E; auto.
Qed.

Lemma dict_get_set_neq {A} (k k' : string) (v : A) (d : list (string * A)) :
  k <> k' -> dict_get k' (dict_set k v d) = dict_get k' d.
Proof.
  intros Hne. induction d as [|[j w] d IH]; simpl.
  - destruct (String.eqb k k') eqn:E; [apply String.eqb_eq in E; congruence|reflexivity].
  - destruct (String.eqb j k) eqn:E; simpl.
    + apply String.eqb_eq in E. subst j.
      destruct (String.eqb k k') eqn:E'; [apply String.eqb_eq in E'; congruence|reflexivity].
    + destruct (String.eqb j k'); auto.
Qed.

(** [read_settings_file], step by step, as a function of the file it finds. *)
Lemma read_settings_file_run (cwd : string) (name : pystr) (w : world) :
  starts_with_sep cwd = true ->
  read_settings_file cwd name w =
  match fs w !! resolve cwd (user_or_default_settings_file cwd name) with
  | None => (Exit 1, mkWorld (fs w) (stdin w) (stdout w ++ error_lines 400 (Some MSG_NOT_FOUND) None))
  | Some (BadText err) =>
      (Exit 1, mkWorld (fs w) (stdin w) (stdout w ++ error_lines 500 (Some "Failed to read JSON file.") (Some err)))
  | Some (JsonText v) =>
      if negb (truthy v)
      then (Exit 1, mkWorld (fs w) (stdin w) (stdout w ++ error_lines 500 (Some MSG_UNREADABLE) None))
      else match v with
           | PDict d =>
               match dict_get "settings_file_version" d with
               | Some x =>
                   if negb (Py.eqb x (PInt DEFAULT_SETTINGS_FILE_VERSION))
                   then (Exit 1, mkWorld (fs w) (stdin w) (stdout w ++ error_lines 500 (Some MSG_OUT_OF_DATE) None))
                   else (Ret v, w)
               | None => (Raise (KeyError "settings_file_version"), w)
               end
           | _ => (Raise TypeError, w)
           end
  end.
Proof.
  intros Hc. set (p := user_or_default_settings_file cwd name).
  unfold read_settings_file. fold p.
  cbv beta iota zeta delta [bind isfile read_json_file load_json ret getitem raise].
  rewrite resolve_join by exact Hc.
  destruct (fs w !! resolve cwd p) as [[v|err]|] eqn:E; cbn [bool_decide is_Some negb].
  - rewrite bool_decide_true by (eexists; reflexivity). cbn [negb]. rewrite E.
    destruct (truthy v); cbn [negb].
    + destruct v; try reflexivity.
      destruct (dict_get "settings_file_version" d); [|reflexivity].
      destruct (Py.eqb p0 (PInt DEFAULT_SETTINGS_FILE_VERSION)); cbn [negb];
        [reflexivity|rewrite error_and_exit_run; reflexivity].
    + rewrite error_and_exit_run; reflexivity.
  - rewrite bool_decide_true by (eexists; reflexivity). cbn [negb]. rewrite E.
    rewrite error_and_exit_run; reflexivity.
  - rewrite bool_decide_false by (intros [? H]; discriminate H). cbn [negb].
    rewrite error_and_exit_run; reflexivity.
Qed.

End ModelFacts.

(* ================================================================= *)
(** ** Settings: writing, reading, resolving *)

Module Settings.
Import ModelFacts.

Lemma dict_get_some_in (k : string) (d : dict) :
  dict_in k d = true -> exists v, dict_get k d = Some v.
Proof.
  intros H. destruct (dict_get k d) eqn:X; [eauto|]. apply dict_get_in in X. congruence.
Qed.

Lemma fill_defaults_spec (d : dict) :
  dict_get "api_compute" (fill_defaults d) =
    Some (match dict_get "api_compute" d with Some v => v | None => PNone end) /\
  dict_get "ca_bundle" (fill_defaults d) =
    Some (match dict_get "ca_bundle" d with Some v => v | None => PNone end) /\
  (forall k, k <> "api_compute" -> k <> "ca_bundle" -> dict_get k (fill_defaults d) = dict_get k d).
Proof.
  unfold fill_defaults.
  destruct (dict_in "api_compute" d) eqn:Ec.
  - destruct (dict_get_some_in _ _ Ec) as [vc Hvc]. rewrite Hvc.
    destruct (dict_in "ca_bundle" d) eqn:Eb.
    + destruct (dict_get_some_in _ _ Eb) as [vb Hvb]. rewrite Hvb. auto.
    + apply dict_get_in in Eb. rewrite Eb.
      rewrite dict_get_set_neq, Hvc, dict_get_set_eq by discriminate.
      split; [reflexivity|]. split; [reflexivity|].
      intros k _ Hk. apply dict_get_set_neq. congruence.
  - apply dict_get_in in Ec. rewrite Ec.
    destruct (dict_in "ca_bundle" (dict_set "api_compute" PNone d)) eqn:Eb.
    + destruct (dict_get_some_in _ _ Eb) as [vb Hvb].
      rewrite dict_get_set_neq in Hvb by discriminate. rewrite Hvb.
      rewrite dict_get_set_eq, dict_get_set_neq, Hvb by discriminate.
      split; [reflexivity|]. split; [reflexivity|].
      intros k Hk _. apply dict_get_set_neq. congruence.
    + apply dict_get_in in Eb. rewrite dict_get_set_neq in Eb by discriminate. rewrite Eb.
      rewrite dict_get_set_neq, dict_get_set_eq by discriminate.
      rewrite dict_get_set_eq.
      split; [reflexivity|]. split; [reflexivity|].
      intros k Hk Hk'. rewrite !dict_get_set_neq by congruence. reflexivity.
Qed.

(** C2 (as amended): when the operating system opens the settings path
    for writing (the directories on the way exist, the path is not a
    directory and does not end in ['/'], and the write is permitted) and
    the path names a regular file the process may read, or nothing yet (not
    a special file such as [/dev/null]), writing the settings of [args] and
    reading them back from the same [config_file] succeeds and gives the
    dict [write_settings_file] built: version 4, [apiBase] and
    [api_compute] normalised, [username], [password] and [ca_bundle] as
    given. *)
Theorem write_then_read_settings (cwd : string) (os : host) (a : args) (w : world) :
  starts_with_sep cwd = true ->
  username a <> None -> password a <> None -> api a <> None ->
  open_for_write cwd os (fs w) (join cwd (user_or_default_settings_file cwd (config_file a))) = None ->
  resolve cwd (user_or_default_settings_file cwd (config_file a)) ∉ devices os ->
  resolve cwd (user_or_default_settings_file cwd (config_file a)) ∉ write_only os ->
  exists w',
    write_settings_file cwd os a w = (Ret tt, w') /\
    fst (read_settings_file cwd (config_file a) w') =
      Ret (PDict [("settings_file_version", PInt 4);
                  ("apiBase", of_pystr (normalize_api_base (api a)));
                  ("username", of_pystr (username a));
                  ("password", of_pystr (password a));
                  ("api_compute", of_pystr (normalize_api_compute_base (api_compute a)));
                  ("ca_bundle", of_pystr (ca_bundle a))]).
Proof.
  intros Hc _ _ _ Ho Hdev Hwo.
  set (p := user_or_default_settings_file cwd (config_file a)) in *.
  eexists. split.
  { unfold write_settings_file, write_json_file. fold p. rewrite Ho.
    rewrite (resolve_join cwd p Hc).
    rewrite (bool_decide_false _ Hdev), (bool_decide_false _ Hwo). reflexivity. }
  rewrite read_settings_file_run by exact Hc. fold p. cbn [fs].
  rewrite lookup_insert_eq. reflexivity.
Qed.

Lemma write_then_read_settings_witness :
  let a := mkArgs (Some "key") (Some "secret") (Some "https://app.example.com/") None None None false in
  let w := mkWorld ∅ [] [] in
  (starts_with_sep "/home/u" = true /\
   open_for_write "/home/u" host0 (fs w) (join "/home/u" (user_or_default_settings_file "/home/u" (config_file a))) = None /\
   (resolve "/home/u" (user_or_default_settings_file "/home/u" (config_file a)) ∉ devices host0) /\
   (resolve "/home/u" (user_or_default_settings_file "/home/u" (config_file a)) ∉ write_only host0)) /\
  exists w',
    write_settings_file "/home/u" host0 a w = (Ret tt, w') /\
    fst (read_settings_file "/home/u" (config_file a) w') =
      Ret (PDict [("settings_file_version", PInt 4);
                  ("apiBase", of_pystr (normalize_api_base (api a)));
                  ("username", of_pystr (username a));
                  ("password", of_pystr (password a));
                  ("api_compute", of_pystr (normalize_api_compute_base (api_compute a)));
                  ("ca_bundle", of_pystr (ca_bundle a))]).
Proof.
  intros a w.
  assert (Ho : open_for_write "/home/u" host0 (fs w)
                 (join "/home/u" (user_or_default_settings_file "/home/u" (config_file a))) = None)
    by (vm_compute; reflexivity).
  assert (Hd : resolve "/home/u" (user_or_default_settings_file "/home/u" (config_file a)) ∉ devices host0)
    by (apply (proj1 (bool_decide_eq_false _)); vm_compute; reflexivity).
  assert (Hr : resolve "/home/u" (user_or_default_settings_file "/home/u" (config_file a)) ∉ write_only host0)
    by (apply (proj1 (bool_decide_eq_false _)); vm_compute; reflexivity).
  split; [repeat split; assumption|].
  apply (write_then_read_settings "/home/u" host0 a w); [reflexivity|discriminate..|exact Ho|exact Hd|exact Hr].
Defined.

(** C2 (counterexample): settings written with all three credentials are
    not always read back.  With [--config_file ""] the settings path is the
    working directory itself: the write exits with status 1, and so does
    the read.  With [--config_file /dev/null] the write succeeds, but the
    text goes to a special file, [os.path.isfile] is false, and the read
    exits with status 1 (status code 400). *)
Lemma write_settings_not_read_back :
  let a := mkArgs (Some "key") (Some "secret") (Some "https://app.example.com/") None None (Some "") false in
  let a' := mkArgs (Some "key") (Some "secret") (Some "https://app.example.com/") None None (Some "/dev/null") false in
  let w := mkWorld ∅ [] [] in
  fst (write_settings_file "/home/u" host0 a w) = Exit 1 /\
  fst (read_settings_file "/home/u" (config_file a) (snd (write_settings_file "/home/u" host0 a w))) = Exit 1 /\
  write_settings_file "/home/u" host0 a' w = (Ret tt, w) /\
  read_settings_file "/home/u" (config_file a') w =
    (Exit 1, mkWorld ∅ [] (error_lines 400 (Some MSG_NOT_FOUND) None)).
Proof. vm_compute. repeat split. Qed.

(** C3: with one or two of [username], [password], [api] given,
    [get_settings] prints the status 400 diagnostic and exits with status
    1: no settings are returned and no file is touched. *)
Theorem get_settings_partial_credentials_exit (cwd : string) (a : args) (w : world) :
  credentials_present a = 1%nat \/ credentials_present a = 2%nat ->
  get_settings cwd a w =
    (Exit 1, mkWorld (fs w) (stdin w) (stdout w ++ error_lines 400 (Some MSG_ALL_REQUIRED) None)).
Proof.
  unfold credentials_present, get_settings.
  destruct (username a), (password a), (api a); cbn [is_none andb orb Nat.add];
    intros [H|H]; try discriminate H; unfold bind; rewrite error_and_exit_run; reflexivity.
Qed.

Lemma get_settings_partial_credentials_exit_witness :
  let a := mkArgs (Some "key") None None None None None false in
  (credentials_present a = 1%nat \/ credentials_present a = 2%nat) /\
  get_settings "/home/u" a (mkWorld ∅ [] []) =
    (Exit 1, mkWorld ∅ [] ([] ++ error_lines 400 (Some MSG_ALL_REQUIRED) None)).
Proof.
  intros a. split; [left; reflexivity|].
  apply (get_settings_partial_credentials_exit "/home/u" a (mkWorld ∅ [] [])). left; reflexivity.
Defined.

(** C5: with [username], [password] and [api] all given, [get_settings]
    returns the dict built from the arguments ([apiBase] and [api_compute]
    normalised, the others as given) in every world, and leaves the world
    as it is: the result does not depend on the file system and no file is
    read or written. *)
Theorem get_settings_from_args (cwd : string) (a : args) :
  username a <> None -> password a <> None -> api a <> None ->
  forall w, get_settings cwd a w =
    (Ret (PDict [("apiBase", of_pystr (normalize_api_base (api a)));
                 ("username", of_pystr (username a));
                 ("password", of_pystr (password a));
                 ("api_compute", of_pystr (normalize_api_compute_base (api_compute a)));
                 ("ca_bundle", of_pystr (ca_bundle a))]), w).
Proof.
  intros Hu Hp Ha w. unfold get_settings.
  destruct (username a) eqn:E1; [|congruence]. destruct (password a) eqn:E2; [|congruence].
  destruct (api a) eqn:E3; [|congruence]. cbn [is_none andb orb].
  unfold ret, settings_of_args. rewrite E1, E2, E3. reflexivity.
Qed.

Lemma get_settings_from_args_witness :
  let a := mkArgs (Some "key") (Some "secret") (Some "https://app.example.com/") None None None false in
  let w := mkWorld {[ "/home/u/pc-settings.conf" := BadText "Expecting value" ]} [] [] in
  get_settings "/home/u" a w =
    (Ret (PDict [("apiBase", PStr "api.example.com"); ("username", PStr "key");
                 ("password", PStr "secret"); ("api_compute", PNone); ("ca_bundle", PNone)]), w).
Proof.
  intros a w. apply (get_settings_from_args "/home/u" a); discriminate.
Defined.






(** C9: a well-formed, non-empty JSON object without [settings_file_version]
    makes [read_settings_file] raise an uncaught [KeyError]: nothing is
    printed on the fatal-exit path and no [sys.exit(1)] is reached. *)
Theorem read_settings_file_missing_version_key_error :
  let w := mkWorld {[ "/home/u/pc-settings.conf" :=
                        JsonText (PDict [("apiBase", PStr "api.prismacloud.io");
                                         ("username", PStr "key"); ("password", PStr "secret")]) ]} [] [] in
  read_settings_file "/home/u" None w = (Raise (KeyError "settings_file_version"), w).
Proof. vm_compute. reflexivity. Qed.

End Settings.

(* ================================================================= *)
(** ** The confirmation prompt *)

Module Prompt.
Import ModelFacts.

(** C7 (counterexample): the response is compared as typed, without
    trimming: [" yes"], which trims to ["yes"], makes the prompt exit. *)
Lemma prompt_response_not_trimmed :
  let a := mkArgs None None None None None None false in
  fst (prompt_for_verification_to_continue a (mkWorld ∅ [" yes"] [])) = Exit 1 /\
  PyStr.strip " yes" = "yes".
Proof. vm_compute. split; reflexivity. Qed.

(** C7 (as amended): with [--yes] the prompt returns at once and touches
    nothing; otherwise it prints a blank line and the notice, writes the
    question and reads one line (raising [EOFError] when there is none),
    prints a blank line, and returns only when the line is exactly ["yes"]
    or ["y"] (case-sensitive, no whitespace trimming); any other line makes
    it print status 400 and [Exiting ...] and exit with status 1. *)
Theorem prompt_for_verification_amended (a : args) (w : world) :
  (yes a = true -> prompt_for_verification_to_continue a w = (Ret tt, w)) /\
  (yes a = false -> stdin w = [] ->
     prompt_for_verification_to_continue a w =
       (Raise EOFError, mkWorld (fs w) [] (stdout w ++ [line ""; line MSG_READY; PROMPT]))) /\
  (yes a = false -> forall l rest, stdin w = l :: rest ->
     prompt_for_verification_to_continue a w =
       if String.eqb l "yes" || String.eqb l "y"
       then (Ret tt, mkWorld (fs w) rest (stdout w ++ [line ""; line MSG_READY; PROMPT; line ""]))
       else (Exit 1, mkWorld (fs w) rest
                       (stdout w ++ [line ""; line MSG_READY; PROMPT; line ""] ++
                        error_lines 400 (Some "Exiting ...") None))).
Proof.
  destruct w as [f i o]. unfold prompt_for_verification_to_continue.
  split; [intros ->; reflexivity|].
  split.
  - intros -> Hi. cbn in Hi. subst i. cbn. rewrite <- !app_assoc. reflexivity.
  - intros Hy l rest Hi. rewrite Hy. cbn in Hi. subst i. cbn - [error_and_exit].
    rewrite <- !app_assoc.
    destruct (String.eqb l "yes" || String.eqb l "y"); [reflexivity|].
    rewrite error_and_exit_run. cbn. rewrite <- !app_assoc. reflexivity.
Qed.

End Prompt.

(* ================================================================= *)
(** ** The search helpers *)

Module Search.
Import ModelFacts.

Lemma dict_in_get (k : string) (d : dict) :
  dict_in k d = match dict_get k d with Some _ => true | None => false end.
Proof.
  destruct (dict_get k d) eqn:X.
  - destruct (dict_in k d) eqn:Y; [reflexivity|]. apply dict_get_in in Y. congruence.
  - apply dict_get_in in X. exact X.
Qed.

Lemma search_list_value_find (l : list dict) (f r : string) (v : pyval) :
  search_list_value l f r v =
    match find (field_matches f v) l with Some it => item_get it r | None => Ret PNone end.
Proof.
  induction l as [|it l IH]; [reflexivity|]. cbn [search_list_value find].
  rewrite dict_in_get. unfold field_matches.
  destruct (dict_get f it); [destruct (Py.eqb p v)|]; auto.
Qed.

Lemma search_list_object_find (l : list dict) (f : string) (v : pyval) :
  search_list_object l f v = Ret (find (field_matches f v) l).
Proof.
  induction l as [|it l IH]; [reflexivity|]. cbn [search_list_object find].
  rewrite dict_in_get. unfold field_matches.
  destruct (dict_get f it); [destruct (Py.eqb p v)|]; auto.
Qed.

Lemma search_list_list_find (l : list dict) (f : string) (v : pyval) :
  search_list_list l f v = Ret (match find (field_matches f v) l with Some it => [it] | None => [] end).
Proof.
  induction l as [|it l IH]; [reflexivity|]. cbn [search_list_list find].
  rewrite dict_in_get. unfold field_matches.
  destruct (dict_get f it); [destruct (Py.eqb p v)|]; auto.
Qed.

(** One mapping of the case-insensitive loops, all of whose searched
    fields hold strings. *)
Ltac lower_loop_step :=
  rewrite dict_in_get; unfold field_matches_lower, str_field in *;
  match goal with
  | H : forallb _ (_ :: _) = true |- _ =>
      cbn [forallb] in H;
      let Hit := fresh "Hit" in let Hl := fresh "Hl" in
      apply andb_prop in H as [Hit Hl];
      destruct (dict_get _ _) as [[| | | | |]|]; try discriminate Hit; cbn [lower_method];
      [destruct (String.eqb _ _)|]; auto
  end.

Lemma search_list_value_lower_find (l : list dict) (f r s : string) :
  forallb (str_field f) l = true ->
  search_list_value_lower l f r (PStr s) =
    match find (field_matches_lower f s) l with Some it => item_get it r | None => Ret PNone end.
Proof.
  unfold search_list_value_lower. cbn [lower_method].
  induction l as [|it l IH]; intros H; [reflexivity|]. cbn [search_list_value_lower_loop find].
  lower_loop_step.
Qed.

Lemma search_list_object_lower_find (l : list dict) (f s : string) :
  forallb (str_field f) l = true ->
  search_list_object_lower l f (PStr s) = Ret (find (field_matches_lower f s) l).
Proof.
  unfold search_list_object_lower. cbn [lower_method].
  induction l as [|it l IH]; intros H; [reflexivity|]. cbn [search_list_object_lower_loop find].
  lower_loop_step.
Qed.

Lemma search_list_list_lower_find (l : list dict) (f s : string) :
  forallb (str_field f) l = true ->
  search_list_list_lower l f (PStr s) =
    Ret (match find (field_matches_lower f s) l with Some it => [it] | None => [] end).
Proof.
  unfold search_list_list_lower. cbn [lower_method].
  induction l as [|it l IH]; intros H; [reflexivity|]. cbn [search_list_list_lower_loop find].
  lower_loop_step.
Qed.

Lemma search_list_value_lower_scan (l : list dict) (f r s : string) :
  search_list_value_lower l f r (PStr s) =
    match find (lower_stop f s) l with
    | Some it => match dict_get f it with Some (PStr _) => item_get it r | _ => Raise AttributeError end
    | None => Ret PNone
    end.
Proof.
  unfold search_list_value_lower. cbn [lower_method].
  induction l as [|it l IH]; [reflexivity|]. cbn [search_list_value_lower_loop find].
  rewrite dict_in_get. unfold lower_stop.
  destruct (dict_get f it) as [[| | | | |]|] eqn:E; cbn [lower_method]; rewrite ?E; auto.
  match goal with |- context [String.eqb ?x ?y] => destruct (String.eqb x y) end; rewrite ?E; auto.
Qed.

Lemma search_list_object_lower_scan (l : list dict) (f s : string) :
  search_list_object_lower l f (PStr s) =
    match find (lower_stop f s) l with
    | Some it => match dict_get f it with Some (PStr _) => Ret (Some it) | _ => Raise AttributeError end
    | None => Ret None
    end.
Proof.
  unfold search_list_object_lower. cbn [lower_method].
  induction l as [|it l IH]; [reflexivity|]. cbn [search_list_object_lower_loop find].
  rewrite dict_in_get. unfold lower_stop.
  destruct (dict_get f it) as [[| | | | |]|] eqn:E; cbn [lower_method]; rewrite ?E; auto.
  match goal with |- context [String.eqb ?x ?y] => destruct (String.eqb x y) end; rewrite ?E; auto.
Qed.

Lemma search_list_list_lower_scan (l : list dict) (f s : string) :
  search_list_list_lower l f (PStr s) =
    match find (lower_stop f s) l with
    | Some it => match dict_get f it with Some (PStr _) => Ret [it] | _ => Raise AttributeError end
    | None => Ret []
    end.
Proof.
  unfold search_list_list_lower. cbn [lower_method].
  induction l as [|it l IH]; [reflexivity|]. cbn [search_list_list_lower_loop find].
  rewrite dict_in_get. unfold lower_stop.
  destruct (dict_get f it) as [[| | | | |]|] eqn:E; cbn [lower_method]; rewrite ?E; auto.
  match goal with |- context [String.eqb ?x ?y] => destruct (String.eqb x y) end; rewrite ?E; auto.
Qed.

Lemma search_lower_non_string_value (l : list dict) (f r : string) (v : pyval) :
  (forall x, v <> PStr x) ->
  search_list_value_lower l f r v = Raise AttributeError /\
  search_list_object_lower l f v = Raise AttributeError /\
  search_list_list_lower l f v = Raise AttributeError.
Proof.
  intros H. unfold search_list_value_lower, search_list_object_lower, search_list_list_lower.
  destruct v; try (cbn [lower_method]; auto). exfalso. eapply H. reflexivity.
Qed.

(** C8 (as amended): each helper scans the list in order and stops at the
    first mapping that has the field with a matching value ([List.find]):
    the value variants return that mapping's [field_to_return] (a
    [KeyError] if it has none) or [None] when nothing matches, the object
    variants the mapping or [None], the list variants a one-element list or
    [[]].  The case-sensitive test is [==], so a string differing from the
    search string (for instance in casing only) does not match.  The
    [_lower] variants do not depend on the casing of the search string;
    they stop at the first mapping whose field holds a non-string (an
    [AttributeError]) or a string equal to the search string after
    lower-casing both, so when every searched field holds a string they
    compare lower-cased strings; a non-string search value raises
    [AttributeError]. *)
Theorem search_helpers_amended (l : list dict) (f r : string) (v : pyval) (s : string) :
  search_list_value l f r v =
    match find (field_matches f v) l with Some it => item_get it r | None => Ret PNone end /\
  search_list_object l f v = Ret (find (field_matches f v) l) /\
  search_list_list l f v =
    Ret (match find (field_matches f v) l with Some it => [it] | None => [] end) /\
  (forall it x, dict_get f it = Some (PStr x) -> x <> s -> field_matches f (PStr s) it = false) /\
  (forall s', PyStr.lower s' = PyStr.lower s ->
     search_list_value_lower l f r (PStr s') = search_list_value_lower l f r (PStr s) /\
     search_list_object_lower l f (PStr s') = search_list_object_lower l f (PStr s) /\
     search_list_list_lower l f (PStr s') = search_list_list_lower l f (PStr s)) /\
  (forallb (str_field f) l = true ->
     search_list_value_lower l f r (PStr s) =
       match find (field_matches_lower f s) l with Some it => item_get it r | None => Ret PNone end /\
     search_list_object_lower l f (PStr s) = Ret (find (field_matches_lower f s) l) /\
     search_list_list_lower l f (PStr s) =
       Ret (match find (field_matches_lower f s) l with Some it => [it] | None => [] end)) /\
  (search_list_value_lower l f r (PStr s) =
     match find (lower_stop f s) l with
     | Some it => match dict_get f it with Some (PStr _) => item_get it r | _ => Raise AttributeError end
     | None => Ret PNone
     end /\
   search_list_object_lower l f (PStr s) =
     match find (lower_stop f s) l with
     | Some it => match dict_get f it with Some (PStr _) => Ret (Some it) | _ => Raise AttributeError end
     | None => Ret None
     end /\
   search_list_list_lower l f (PStr s) =
     match find (lower_stop f s) l with
     | Some it => match dict_get f it with Some (PStr _) => Ret [it] | _ => Raise AttributeError end
     | None => Ret []
     end) /\
  ((forall x, v <> PStr x) ->
     search_list_value_lower l f r v = Raise AttributeError /\
     search_list_object_lower l f v = Raise AttributeError /\
     search_list_list_lower l f v = Raise AttributeError).
Proof.
  split; [apply search_list_value_find|].
  split; [apply search_list_object_find|].
  split; [apply search_list_list_find|].
  split.
  { intros it x Hx Hne. unfold field_matches. rewrite Hx. cbn [Py.eqb].
    apply String.eqb_neq. exact Hne. }
  split.
  { intros s' Hs. unfold search_list_value_lower, search_list_object_lower, search_list_list_lower.
    cbn [lower_method]. rewrite Hs. auto. }
  split.
  { intros H. split; [now apply search_list_value_lower_find|].
    split; [now apply search_list_object_lower_find|]. now apply search_list_list_lower_find. }
  split.
  { split; [apply search_list_value_lower_scan|].
    split; [apply search_list_object_lower_scan|apply search_list_list_lower_scan]. }
  apply search_lower_non_string_value.
Qed.

(** C8 (counterexample): a mapping whose searched field holds a number does
    not match the search string, yet the [_lower] variants raise
    [AttributeError] ([int] has no [lower]) instead of returning [None] or
    [[]]. *)
Lemma search_lower_raises_on_non_string :
  let l := [[("id", PInt 7)]] in
  field_matches "id" (PStr "x") [("id", PInt 7)] = false /\
  search_list_object l "id" (PStr "x") = Ret None /\
  search_list_value_lower l "id" "name" (PStr "x") = Raise AttributeError /\
  search_list_object_lower l "id" (PStr "x") = Raise AttributeError /\
  search_list_list_lower l "id" (PStr "x") = Raise AttributeError.
Proof. vm_compute. repeat split. Qed.

End Search.

(* ================================================================= *)
(** ** Effects: what the fatal paths and the read paths do to the process *)

Module Effects.
Import ModelFacts.

Create HintDb effects.

Lemma keeps_ret {A} (a : A) : keeps_files (ret a).
Proof. intros w. repeat split. exists []. symmetry. apply app_nil_r. Qed.

Lemma keeps_bind {A B} (m : M A) (k : A -> M B) :
  keeps_files m -> (forall a, keeps_files (k a)) -> keeps_files (bind m k).
Proof.
  intros Hm Hk w. unfold bind. destruct (Hm w) as (F1 & I1 & o1 & O1).
  destruct (m w) as [[a|n|e] w1]; cbn in *.
  - destruct (Hk a w1) as (F2 & I2 & o2 & O2). split; [congruence|]. split; [congruence|].
    exists (o1 ++ o2)%list. rewrite O2, O1, app_assoc. reflexivity.
  - eauto.
  - eauto.
Qed.

Lemma keeps_raise {A} (e : exn) : keeps_files (@raise A e).
Proof. intros w. repeat split. exists []. symmetry. apply app_nil_r. Qed.

Lemma keeps_write_out (s : string) : keeps_files (write_out s).
Proof. intros w. repeat split. eexists. reflexivity. Qed.

Lemma keeps_print (s : string) : keeps_files (print s).
Proof. apply keeps_write_out. Qed.

Lemma keeps_error_and_exit {A} (code : Z) (msg sysmsg : pystr) :
  keeps_files (@error_and_exit A code msg sysmsg).
Proof. intros w. rewrite error_and_exit_run. repeat split. eexists. reflexivity. Qed.

Lemma keeps_isfile (cwd p : string) : keeps_files (isfile cwd p).
Proof. intros w. repeat split. exists []. symmetry. apply app_nil_r. Qed.

Lemma keeps_load_json (cwd p : string) : keeps_files (load_json cwd p).
Proof.
  intros w. unfold load_json. destruct (fs w !! resolve cwd p) as [[]|];
    repeat split; exists []; symmetry; apply app_nil_r.
Qed.

Lemma keeps_getitem (o : pyval) (k : string) : keeps_files (getitem o k).
Proof.
  unfold getitem. destruct o; try apply keeps_raise.
  destruct (dict_get k d); [apply keeps_ret|apply keeps_raise].
Qed.

Lemma keeps_setitem (o : pyval) (k : string) (v : pyval) : keeps_files (setitem o k v).
Proof. unfold setitem. destruct o; try apply keeps_raise. apply keeps_ret. Qed.

#[local] Hint Resolve keeps_ret keeps_raise keeps_print keeps_error_and_exit keeps_isfile
  keeps_load_json keeps_getitem keeps_setitem : effects.

(** Steps through a computation built from [bind], [if] and [match]. *)
Ltac keeps_step :=
  repeat match goal with
  | |- keeps_files (bind _ _) => apply keeps_bind; [|intros]
  | |- keeps_files (if ?b then _ else _) => destruct b
  | |- keeps_files (match ?x with _ => _ end) => destruct x
  end; auto with effects.

Lemma keeps_read_json_file (cwd p : string) : keeps_files (read_json_file cwd p).
Proof. unfold read_json_file. keeps_step. Qed.

#[local] Hint Resolve keeps_read_json_file : effects.

Lemma keeps_read_settings_file (cwd : string) (name : pystr) :
  keeps_files (read_settings_file cwd name).
Proof. unfold read_settings_file. keeps_step. Qed.

#[local] Hint Resolve keeps_read_settings_file : effects.

(** [read_settings_file] and [get_settings] never write a file and never
    read from the terminal: in every outcome the file system and the pending
    input are as before, and the output has only grown. *)
Theorem settings_readers_keep_files (cwd : string) (name : pystr) (a : args) :
  keeps_files (read_settings_file cwd name) /\ keeps_files (get_settings cwd a).
Proof.
  split; [apply keeps_read_settings_file|]. unfold get_settings. keeps_step.
Qed.

(** The same for exit statuses. *)
Lemma one_ret {A} (a : A) : exits_with_one (ret a).
Proof. intros w n H. discriminate H. Qed.

Lemma one_bind {A B} (m : M A) (k : A -> M B) :
  exits_with_one m -> (forall a, exits_with_one (k a)) -> exits_with_one (bind m k).
Proof.
  intros Hm Hk w n. unfold bind. specialize (Hm w).
  destruct (m w) as [[a|n'|e] w1]; cbn in *.
  - apply Hk.
  - intros H. injection H as <-. apply Hm. reflexivity.
  - discriminate.
Qed.

Lemma one_raise {A} (e : exn) : exits_with_one (@raise A e).
Proof. intros w n H. discriminate H. Qed.

Lemma one_write_out (s : string) : exits_with_one (write_out s).
Proof. intros w n H. discriminate H. Qed.

Lemma one_print (s : string) : exits_with_one (print s).
Proof. apply one_write_out. Qed.

Lemma one_input (prompt : string) : exits_with_one (input prompt).
Proof. intros w n. unfold input. destruct (stdin w); discriminate. Qed.

Lemma one_error_and_exit {A} (code : Z) (msg sysmsg : pystr) :
  exits_with_one (@error_and_exit A code msg sysmsg).
Proof. intros w n. rewrite error_and_exit_run. cbn. intros H. injection H as <-. reflexivity. Qed.

Lemma one_isfile (cwd p : string) : exits_with_one (isfile cwd p).
Proof. intros w n H. discriminate H. Qed.

Lemma one_load_json (cwd p : string) : exits_with_one (load_json cwd p).
Proof. intros w n. unfold load_json. destruct (fs w !! resolve cwd p) as [[]|]; discriminate. Qed.

Lemma one_getitem (o : pyval) (k : string) : exits_with_one (getitem o k).
Proof.
  unfold getitem. destruct o; try apply one_raise.
  destruct (dict_get k d); [apply one_ret|apply one_raise].
Qed.

Lemma one_setitem (o : pyval) (k : string) (v : pyval) : exits_with_one (setitem o k v).
Proof. unfold setitem. destruct o; try apply one_raise. apply one_ret. Qed.

Lemma one_store (f : world -> world) : exits_with_one (fun w => (Ret tt, f w)).
Proof. intros w n H. discriminate H. Qed.

#[local] Hint Resolve one_ret one_raise one_print one_input one_error_and_exit one_isfile
  one_load_json one_getitem one_setitem one_store : effects.

Ltac one_step :=
  repeat match goal with
  | |- exits_with_one (bind _ _) => apply one_bind; [|intros]
  | |- exits_with_one (if ?b then _ else _) => destruct b
  | |- exits_with_one (match ?x with _ => _ end) => destruct x
  end; auto with effects.

Lemma one_read_json_file (cwd p : string) : exits_with_one (read_json_file cwd p).
Proof. unfold read_json_file. one_step. Qed.

Lemma one_write_json_file (cwd : string) (os : host) (p : string) (v : pyval) (pretty : bool) :
  exits_with_one (write_json_file cwd os p v pretty).
Proof.
  intros w n. unfold write_json_file.
  destruct (open_for_write cwd os (fs w) (join cwd p)); [apply one_error_and_exit|].
  destruct (bool_decide _); discriminate.
Qed.

#[local] Hint Resolve one_read_json_file one_write_json_file : effects.

Lemma one_read_settings_file (cwd : string) (name : pystr) :
  exits_with_one (read_settings_file cwd name).
Proof. unfold read_settings_file. one_step. Qed.

#[local] Hint Resolve one_read_settings_file : effects.

(** Every fatal exit of the settings functions, of the prompt and of the
    JSON helpers has status 1, whatever status code ([400], [500]) the
    diagnostic shows. *)
Theorem fatal_exits_have_status_one (cwd : string) (os : host) (name : pystr) (a : args) (p : string) (v : pyval) (pretty : bool) :
  exits_with_one (read_settings_file cwd name) /\ exits_with_one (get_settings cwd a) /\
  exits_with_one (write_settings_file cwd os a) /\ exits_with_one (prompt_for_verification_to_continue a) /\
  exits_with_one (read_json_file cwd p) /\ exits_with_one (write_json_file cwd os p v pretty).
Proof.
  split; [apply one_read_settings_file|].
  split; [unfold get_settings; one_step|].
  split; [unfold write_settings_file; apply one_write_json_file|].
  split; [unfold prompt_for_verification_to_continue; one_step|].
  split; [apply one_read_json_file|apply one_write_json_file].
Qed.

End Effects.

(* ================================================================= *)
(** ** JSON files and the settings file, composed *)

Module Files.
Import ModelFacts.



(** After [write_settings_file(args)] with all three credentials, on a
    settings path the operating system opens for writing and that names a
    regular file the process may read (or nothing yet), [get_settings]
    called without credentials and with the same [config_file] returns the
    dict [get_settings(args)] returns from the arguments, with
    [settings_file_version] 4 in front. *)
Theorem written_settings_match_argument_settings (cwd : string) (os : host) (a a' : args) (w : world) :
  starts_with_sep cwd = true ->
  username a <> None -> password a <> None -> api a <> None ->
  open_for_write cwd os (fs w) (join cwd (user_or_default_settings_file cwd (config_file a))) = None ->
  resolve cwd (user_or_default_settings_file cwd (config_file a)) ∉ devices os ->
  resolve cwd (user_or_default_settings_file cwd (config_file a)) ∉ write_only os ->
  username a' = None -> password a' = None -> api a' = None -> config_file a' = config_file a ->
  exists w' d,
    write_settings_file cwd os a w = (Ret tt, w') /\
    get_settings cwd a w = (Ret (PDict d), w) /\
    get_settings cwd a' w' =
      (Ret (PDict (("settings_file_version", PInt DEFAULT_SETTINGS_FILE_VERSION) :: d)), w').
Proof.
  intros Hc Hu Hp Ha Ho Hdev Hwo Hu' Hp' Ha' Hf.
  set (p := user_or_default_settings_file cwd (config_file a)) in *.
  exists (mkWorld (<[resolve cwd p := JsonText (PDict (settings_of_args true a))]> (fs w)) (stdin w) (stdout w)).
  exists (settings_of_args false a).
  split; [|split].
  - unfold write_settings_file, write_json_file. fold p. rewrite Ho, (resolve_join cwd p Hc).
    rewrite (bool_decide_false _ Hdev), (bool_decide_false _ Hwo). reflexivity.
  - unfold get_settings.
    destruct (username a) eqn:E1; [|congruence]. destruct (password a) eqn:E2; [|congruence].
    destruct (api a) eqn:E3; [|congruence]. reflexivity.
  - unfold get_settings. rewrite Hu', Hp', Ha'. cbn [is_none andb].
    unfold bind at 1. rewrite read_settings_file_run by exact Hc. rewrite Hf. fold p.
    cbn [fs]. rewrite lookup_insert_eq. reflexivity.
Qed.

Lemma written_settings_match_argument_settings_witness :
  let a := mkArgs (Some "key") (Some "secret") (Some "https://app.example.com/") (Some "https://Twistlock.io/") (Some "ca.pem") None false in
  let a' := mkArgs None None None None None None true in
  let w := mkWorld ∅ [] [] in
  (starts_with_sep "/home/u" = true /\
   open_for_write "/home/u" host0 (fs w) (join "/home/u" (user_or_default_settings_file "/home/u" (config_file a))) = None /\
   (resolve "/home/u" (user_or_default_settings_file "/home/u" (config_file a)) ∉ devices host0) /\
   (resolve "/home/u" (user_or_default_settings_file "/home/u" (config_file a)) ∉ write_only host0)) /\
  exists w' d,
    write_settings_file "/home/u" host0 a w = (Ret tt, w') /\
    get_settings "/home/u" a w = (Ret (PDict d), w) /\
    get_settings "/home/u" a' w' =
      (Ret (PDict (("settings_file_version", PInt DEFAULT_SETTINGS_FILE_VERSION) :: d)), w').
Proof.
  intros a a' w.
  assert (Ho : open_for_write "/home/u" host0 (fs w)
                 (join "/home/u" (user_or_default_settings_file "/home/u" (config_file a))) = None)
    by (vm_compute; reflexivity).
  assert (Hd : resolve "/home/u" (user_or_default_settings_file "/home/u" (config_file a)) ∉ devices host0)
    by (apply (proj1 (bool_decide_eq_false _)); vm_compute; reflexivity).
  assert (Hr : resolve "/home/u" (user_or_default_settings_file "/home/u" (config_file a)) ∉ write_only host0)
    by (apply (proj1 (bool_decide_eq_false _)); vm_compute; reflexivity).
  split; [repeat split; assumption|].
  apply (written_settings_match_argument_settings "/home/u" host0 a a' w);
    first [reflexivity | discriminate | assumption].
Defined.

End Files.

(* ================================================================= *)
(** ** Invariants of the normalisation and of the search helpers *)

Module Invariants.
Import PyStr PyStrFacts ModelFacts Search.

Lemma lower_cons (c : ascii) (s : string) :
  lower (String c s) = String c s -> lower_char c = c /\ lower s = s.
Proof. cbn [lower]. intros H. injection H as H1 H2. auto. Qed.

Lemma rstrip_lower (chars s : string) : lower s = s -> lower (rstrip chars s) = rstrip chars s.
Proof.
  induction s as [|c s IH]; intros Hs; [reflexivity|]. apply lower_cons in Hs as [Hc Hs].
  cbn [rstrip]. destruct (String.eqb (rstrip chars s) "" && char_in c chars); [reflexivity|].
  cbn [lower]. rewrite Hc, IH by exact Hs. reflexivity.
Qed.

Lemma normalize_lower_step (s : string) :
  lower (rstrip "/" (replace "https://" "" (replace "http://" "" (lower s)))) =
    rstrip "/" (replace "https://" "" (replace "http://" "" (lower s))).
Proof.
  apply rstrip_lower. unfold replace.
  apply replace_aux_lower; [reflexivity|]. apply replace_aux_lower; [reflexivity|]. apply lower_idem.
Qed.

(** The URLs [normalize_api_base] and [normalize_api_compute_base] return
    are in lower case: [str.lower] leaves them unchanged, so they hold no
    A-Z and no Latin-1 capital, whatever the casing of the input. *)
Theorem normalized_urls_are_lower_case (s : pystr) (r : string) :
  (normalize_api_base s = Some r -> lower r = r) /\
  (normalize_api_compute_base s = Some r -> lower r = r).
Proof.
  destruct s as [a|]; [|split; discriminate].
  split; cbn [normalize_api_base normalize_api_compute_base];
    destruct (negb (PyStr.truthy a)); try discriminate; intros H; injection H as <-.
  - apply rstrip_lower. unfold replace.
    apply replace_aux_lower; [reflexivity|]. apply replace_aux_lower; [reflexivity|].
    apply replace_aux_lower; [reflexivity|]. apply replace_aux_lower; [reflexivity|].
    apply lower_idem.
  - apply normalize_lower_step.
Qed.

Lemma normalized_urls_are_lower_case_witness :
  normalize_api_base (Some "HTTPS://App.RedLock.io/") = Some "api.prismacloud.io" /\
  lower "api.prismacloud.io" = "api.prismacloud.io".
Proof.
  split; [reflexivity|].
  apply (proj1 (normalized_urls_are_lower_case (Some "HTTPS://App.RedLock.io/") "api.prismacloud.io")).
  reflexivity.
Defined.

(** The value and list variants of the search return what the object
    variant finds: the found mapping's [field_to_return], or [None]; a
    one-element list, or [[]]; and they exit or raise exactly when it
    does.  This holds for the case-sensitive and the [_lower] helpers. *)
Theorem search_variants_agree (l : list dict) (f r : string) (v : pyval) :
  search_list_value l f r v =
    match search_list_object l f v with
    | Ret (Some it) => item_get it r | Ret None => Ret PNone | Exit n => Exit n | Raise e => Raise e
    end /\
  search_list_list l f v =
    match search_list_object l f v with
    | Ret (Some it) => Ret [it] | Ret None => Ret [] | Exit n => Exit n | Raise e => Raise e
    end /\
  search_list_value_lower l f r v =
    match search_list_object_lower l f v with
    | Ret (Some it) => item_get it r | Ret None => Ret PNone | Exit n => Exit n | Raise e => Raise e
    end /\
  search_list_list_lower l f v =
    match search_list_object_lower l f v with
    | Ret (Some it) => Ret [it] | Ret None => Ret [] | Exit n => Exit n | Raise e => Raise e
    end.
Proof.
  split; [rewrite search_list_value_find, search_list_object_find; destruct (find _ _); reflexivity|].
  split; [rewrite search_list_list_find, search_list_object_find; destruct (find _ _); reflexivity|].
  unfold search_list_value_lower, search_list_object_lower, search_list_list_lower.
  destruct (lower_method v) as [sv|n|e]; [|split; reflexivity..].
  split.
  - induction l as [|it l IH]; [reflexivity|]. cbn [search_list_value_lower_loop search_list_object_lower_loop].
    destruct (dict_in f it); [|exact IH]. destruct (dict_get f it) as [x|]; [|exact IH].
    destruct (lower_method x) as [lx| |]; [|reflexivity..].
    destruct (String.eqb lx sv); [reflexivity|exact IH].
  - induction l as [|it l IH]; [reflexivity|]. cbn [search_list_list_lower_loop search_list_object_lower_loop].
    destruct (dict_in f it); [|exact IH]. destruct (dict_get f it) as [x|]; [|exact IH].
    destruct (lower_method x) as [lx| |]; [|reflexivity..].
    destruct (String.eqb lx sv); [reflexivity|exact IH].
Qed.

Lemma find_ext_in {A} (p q : A -> bool) (l : list A) :
  (forall x, In x l -> p x = q x) -> find p l = find q l.
Proof.
  induction l as [|x l IH]; intros H; [reflexivity|]. cbn [find].
  rewrite (H x (or_introl eq_refl)). destruct (q x); [reflexivity|].
  apply IH. intros y Hy. apply H. right. exact Hy.
Qed.

Lemma lower_str_field_str (f : string) (l : list dict) :
  forallb (lower_str_field f) l = true -> forallb (str_field f) l = true.
Proof.
  induction l as [|it l IH]; [reflexivity|]. cbn [forallb]. intros H.
  apply andb_prop in H as [H1 H2]. rewrite IH by exact H2.
  unfold lower_str_field, str_field in *. destruct (dict_get f it) as [[]|]; try discriminate; reflexivity.
Qed.

Lemma matches_lower_eq (f s : string) (it : dict) :
  lower s = s -> lower_str_field f it = true ->
  field_matches_lower f s it = field_matches f (PStr s) it.
Proof.
  intros Hs H. unfold lower_str_field, field_matches_lower, field_matches in *.
  destruct (dict_get f it) as [[]|]; try discriminate; try reflexivity.
  apply String.eqb_eq in H. rewrite H, Hs. reflexivity.
Qed.

Lemma find_lower_eq (f s : string) (l : list dict) :
  lower s = s -> forallb (lower_str_field f) l = true ->
  find (field_matches_lower f s) l = find (field_matches f (PStr s)) l.
Proof.
  intros Hs H. apply find_ext_in. intros it Hit. apply matches_lower_eq; [exact Hs|].
  rewrite forallb_forall in H. apply H, Hit.
Qed.

(** When the searched fields are strings already in lower case and the
    search string is in lower case, the [_lower] helpers return what the
    case-sensitive ones return. *)
Theorem search_lower_is_exact_on_lower_case_data (l : list dict) (f r s : string) :
  lower s = s -> forallb (lower_str_field f) l = true ->
  search_list_value_lower l f r (PStr s) = search_list_value l f r (PStr s) /\
  search_list_object_lower l f (PStr s) = search_list_object l f (PStr s) /\
  search_list_list_lower l f (PStr s) = search_list_list l f (PStr s).
Proof.
  intros Hs Hl. pose proof (lower_str_field_str f l Hl) as Hstr.
  rewrite search_list_value_lower_find, search_list_object_lower_find, search_list_list_lower_find
    by exact Hstr.
  rewrite search_list_value_find, search_list_object_find, search_list_list_find.
  rewrite (find_lower_eq f s l Hs Hl). auto.
Qed.

Lemma search_lower_is_exact_on_lower_case_data_witness :
  let l := [[("name", PStr "alpha"); ("id", PInt 1)]; [("id", PInt 2)]; [("name", PStr "beta"); ("id", PInt 3)]] in
  (lower "beta" = "beta" /\ forallb (lower_str_field "name") l = true) /\
  search_list_value_lower l "name" "id" (PStr "beta") = search_list_value l "name" "id" (PStr "beta") /\
  search_list_object_lower l "name" (PStr "beta") = search_list_object l "name" (PStr "beta") /\
  search_list_list_lower l "name" (PStr "beta") = search_list_list l "name" (PStr "beta").
Proof.
  intros l. split; [split; reflexivity|].
  apply search_lower_is_exact_on_lower_case_data; reflexivity.
Defined.

Lemma get_settings_fill_run (d : dict) (w1 : world) :
  (let* settings := if negb (contains (PDict d) "api_compute")
                    then setitem (PDict d) "api_compute" PNone else ret (PDict d) in
   let* settings := if negb (contains settings "ca_bundle")
                    then setitem settings "ca_bundle" PNone else ret settings in
   ret settings) w1 = (Ret (PDict (fill_defaults d)), w1).
Proof.
  cbv [bind ret contains setitem fill_defaults raise].
  destruct (dict_in "api_compute" d); cbn [negb];
    [destruct (dict_in "ca_bundle" d) | destruct (dict_in "ca_bundle" (dict_set "api_compute" PNone d))];
    reflexivity.
Qed.

(** Whenever [get_settings] returns, its result is a dict with the keys
    [api_compute] and [ca_bundle], so a caller can index them: a settings
    file without them gets them as [None], and a file holding something
    other than a dict ends in an exception, not a return. *)
Theorem get_settings_result_has_optional_keys (cwd : string) (a : args) (w : world) (v : pyval) (w' : world) :
  get_settings cwd a w = (Ret v, w') ->
  exists d, v = PDict d /\ dict_in "api_compute" d = true /\ dict_in "ca_bundle" d = true.
Proof.
  unfold get_settings.
  destruct (is_none (username a) && is_none (password a) && is_none (api a)).
  - unfold bind at 1.
    destruct (read_settings_file cwd (config_file a) w) as [[v1|n|e] w1]; try discriminate.
    destruct v1 as [| | | | |d];
      try (unfold bind, contains, setitem, raise, ret; cbn [negb]; discriminate).
    rewrite get_settings_fill_run. intros H. injection H as <- _.
    exists (fill_defaults d). split; [reflexivity|].
    destruct (Settings.fill_defaults_spec d) as (H1 & H2 & _).
    rewrite !dict_in_get, H1, H2. auto.
  - destruct (is_none (username a) || is_none (password a) || is_none (api a)).
    + unfold bind. rewrite error_and_exit_run. discriminate.
    + unfold ret. intros H. injection H as <- _.
      exists (settings_of_args false a). split; [reflexivity|]. split; reflexivity.
Qed.

Lemma get_settings_result_has_optional_keys_witness :
  let a := mkArgs None None None None None None false in
  let w := mkWorld {[ "/home/u/pc-settings.conf" :=
             JsonText (PDict [("settings_file_version", PInt 4); ("apiBase", PStr "api.example.com");
                              ("username", PStr "k"); ("password", PStr "s")]) ]} [] [] in
  exists d, get_settings "/home/u" a w = (Ret (PDict d), w) /\
            dict_in "api_compute" d = true /\ dict_in "ca_bundle" d = true.
Proof.
  intros a w.
  exists [("settings_file_version", PInt 4); ("apiBase", PStr "api.example.com");
          ("username", PStr "k"); ("password", PStr "s"); ("api_compute", PNone); ("ca_bundle", PNone)].
  assert (H : get_settings "/home/u" a w =
    (Ret (PDict [("settings_file_version", PInt 4); ("apiBase", PStr "api.example.com");
          ("username", PStr "k"); ("password", PStr "s"); ("api_compute", PNone); ("ca_bundle", PNone)]), w))
    by (vm_compute; reflexivity).
  split; [exact H|].
  destruct (get_settings_result_has_optional_keys "/home/u" a w _ w H) as (d & Hd & H1 & H2).
  injection Hd as <-. auto.
Defined.

End Invariants.
